(** * lstm_imdb: sequence padding, data preparation, model topology

    Shallow embedding of docs/apphub/NLP/lstm_imdb/lstm_imdb.ipynb.

    Python lists are Rocq lists, Python integers are [Z], [len] is
    [length] read in [Z], and dictionaries with string keys are [gmap]s.
    The first part holds the definitions, cell by cell; the second part
    holds the lemmas and theorems about them. *)

From stdpp Require Import base list strings gmap.
From Stdlib Require Import ZArith Lia.

Local Open Scope Z_scope.

(** * Part I: the notebook *)

(** ** Python list primitives used by the notebook *)

Module Py.

(** [len(l)], a Python integer. *)
Definition len {A : Type} (l : list A) : Z := Z.of_nat (length l).

(** [l * n] for a list [l] and an integer [n]: [n] copies of [l] laid end
    to end, and the empty list when [n] is zero or negative. *)
Definition list_mul {A : Type} (l : list A) (n : Z) : list A :=
  mjoin (replicate (Z.to_nat n) l).

End Py.

(** ** Parameters cell *)

Definition MAX_WORDS : Z := 10000.
Definition MAX_LEN : Z := 500.
Definition batch_size : Z := 64.
Definition epochs : Z := 10.
Definition steps_per_epoch : option Z := None.
Definition validation_steps : option Z := None.

(** ** Sequence padding

    [def pad(input_list, padding_size, padding_value):
         return input_list + [padding_value] * abs((len(input_list) - padding_size))] *)
Definition pad {A : Type} (input_list : list A) (padding_size : Z)
    (padding_value : A) : list A :=
  input_list ++ Py.list_mul [padding_value] (Z.abs (Py.len input_list - padding_size)).

(** ** Data preparation *)

(** The arrays the notebook handles: a one-dimensional array of integers
    (the labels) and an array built from a list of rows (the reviews). *)
Inductive ndarray : Type :=
| Vec (values : list Z)
| Mat (rows : list (list Z)).

(** [np.array(rows)] over a list of Python lists, kept as its rows. *)
Definition np_array (rows : list (list Z)) : ndarray := Mat rows.

(** [[pad(x, MAX_LEN, 0) for x in xs]] *)
Definition padded_reviews (xs : list (list Z)) : list (list Z) :=
  (λ x, pad x MAX_LEN 0) <$> xs.

(** The [data] dictionary. The four arguments are what the dataset loader
    [tf.keras.datasets.imdb.load_data(maxlen=MAX_LEN, num_words=MAX_WORDS)]
    returned. *)
Definition data (x_train : list (list Z)) (y_train : list Z)
    (x_eval : list (list Z)) (y_eval : list Z)
    : gmap string (gmap string ndarray) :=
  {[ "train" := {[ "x" := np_array (padded_reviews x_train); "y" := Vec y_train ]};
     "eval" := {[ "x" := np_array (padded_reviews x_eval); "y" := Vec y_eval ]} ]}.

(** The reviews stored under [d[part]["x"]]. *)
Definition reviews_of (d : gmap string (gmap string ndarray)) (part : string)
    : option (list (list Z)) :=
  d !! part ≫= λ split, split !! "x" ≫= λ a,
  match a with Mat rows => Some rows | Vec _ => None end.

(** ** Pipeline *)

(** A tensor operator of the pipeline: the key it reads, the key it writes
    and what it computes. *)
Record TensorOp : Type := {
  op_inputs : string;
  op_outputs : string;
  op_forward : ndarray → option ndarray
}.

(** The samples of a batch, each as the list of its elements: a label is a
    scalar, a review is a row. *)
Definition samples (a : ndarray) : list (list Z) :=
  match a with
  | Vec values => (λ v, [v]) <$> values
  | Mat rows => rows
  end.

(** Modelled from the spec: the [Reshape] operator of the training framework
    ([fastestimator.op.tensorop.Reshape]) is not among the sources. Per the
    spec it takes the label tensor from shape (N) to (N,1): every sample of
    the batch is laid out in the per-sample shape the operator was given,
    and a sample that does not hold that many elements is a shape mismatch.
    The notebook gives the shape [[1]]; shapes of another rank are not
    represented and are rejected. *)
Definition Reshape_forward (shape : list Z) (a : ndarray) : option ndarray :=
  match shape with
  | [k] =>
      if forallb (λ s, Py.len s =? k) (samples a)
      then Some (Mat (samples a))
      else None
  | _ => None
  end.

Definition Reshape (shape : list Z) (inputs outputs : string) : TensorOp :=
  {| op_inputs := inputs; op_outputs := outputs;
     op_forward := Reshape_forward shape |}.

(** Running an operator on a batch dictionary: read the input key, compute,
    store under the output key. *)
Definition apply_op (op : TensorOp) (batch : gmap string ndarray)
    : option (gmap string ndarray) :=
  batch !! op_inputs op ≫= λ a,
  op_forward op a ≫= λ r,
  Some (<[op_outputs op := r]> batch).

(** [ops=Reshape([1], inputs="y", outputs="y")] *)
Definition pipeline_ops : TensorOp := Reshape [1] "y" "y".

(** An array has shape (n) when it is a vector of [n] values, and shape
    (n, m) when it has [n] rows of [m] columns each. *)
Definition has_shape (a : ndarray) (shape : list Z) : Prop :=
  match a, shape with
  | Vec values, [n] => Py.len values = n
  | Mat rows, [n; m] => Py.len rows = n ∧ Forall (λ r, Py.len r = m) rows
  | _, _ => False
  end.

(** ** Model topology *)

Inductive Layer : Type :=
| Embedding (input_dim output_dim : Z) (input_length : option Z)
| Conv1D (filters kernel_size : Z) (padding : string) (activation : option string)
| MaxPooling1D (pool_size : Z)
| LSTM (units : Z)
| Dense (units : Z) (activation : option string).

(** [tf.keras.Sequential]: the layers in the order they were added. *)
Record Sequential : Type := { layers : list Layer }.

Definition Sequential_new : Sequential := {| layers := [] |}.

(** [model.add(layer)] *)
Definition add (model : Sequential) (layer : Layer) : Sequential :=
  {| layers := layers model ++ [layer] |}.

Definition create_lstm : Sequential :=
  let model := Sequential_new in
  let model := add model (Embedding MAX_WORDS 64 (Some MAX_LEN)) in
  let model := add model (Conv1D 32 3 "same" (Some "relu")) in
  let model := add model (MaxPooling1D 4) in
  let model := add model (LSTM 64) in
  let model := add model (Dense 250 (Some "relu")) in
  let model := add model (Dense 1 (Some "sigmoid")) in
  model.

(** The stages the spec names. *)
Inductive stage : Type :=
| embedding_lookup
| convolution_1d
| max_pooling
| recurrent
| dense.

Definition stage_of (l : Layer) : stage :=
  match l with
  | Embedding _ _ _ => embedding_lookup
  | Conv1D _ _ _ _ => convolution_1d
  | MaxPooling1D _ => max_pooling
  | LSTM _ => recurrent
  | Dense _ _ => dense
  end.

(** ** Training loop and checkpoints *)

(** A directory tree as far as the notebook sees it: the content of each
    file, and the paths written, most recent first. *)
Record disk (weights : Type) : Type := {
  files : gmap string weights;
  written : list string
}.
Arguments files {weights} _.
Arguments written {weights} _.

Definition write {weights : Type} (d : disk weights) (path : string)
    (w : weights) : disk weights :=
  {| files := <[path := w]> (files d); written := path :: written d |}.

(** [os.path.join(save_dir, name)] for a relative [name] and a directory
    written without a trailing separator, as [tempfile.mkdtemp()] returns it. *)
Definition path_join (save_dir name : string) : string :=
  save_dir +:+ "/" +:+ name.

(** Modelled from the spec: the file the [ModelSaver] trace writes, which is
    not among the sources. Per the spec it is a single file in the configured
    directory, named by the model identifier and a best-loss suffix; the
    inference cell reads [lstm_imdb_best_loss.h5]. *)
Definition checkpoint_path (save_dir model_name : string) : string :=
  path_join save_dir (model_name +:+ "_best_loss.h5").

(** What one epoch hands to the traces: the evaluation loss and the model
    parameters at the end of the epoch. *)
Record epoch_result (loss weights : Type) : Type := {
  eval_loss : loss;
  params : weights
}.
Arguments eval_loss {loss weights} _.
Arguments params {loss weights} _.

Section ModelSaver.
Context {loss weights : Type}.
(** [less a b]: the loss [a] is strictly better than the loss [b]. *)
Variable less : loss → loss → bool.

(** Modelled from the spec: when an evaluation loss improves on the best
    seen so far. Before any epoch nothing was seen and every loss improves. *)
Definition improves (best : option loss) (l : loss) : bool :=
  match best with
  | None => true
  | Some b => less l b
  end.

(** Modelled from the spec: the [ModelSaver] trace with [save_best=True]
    ([fastestimator.trace.ModelSaver]), which is not among the sources. Per
    the spec the checkpoint is written whenever the evaluation loss is the
    best seen so far, and at no other time. The state is the best loss so
    far and the disk. *)
Definition on_epoch_end (path : string) (st : option loss * disk weights)
    (e : epoch_result loss weights) : option loss * disk weights :=
  if improves st.1 (eval_loss e)
  then (Some (eval_loss e), write st.2 path (params e))
  else st.

(** [estimator.fit()], as far as checkpoints go: the epochs in order, each
    followed by the trace. *)
Definition fit (path : string) (d0 : disk weights)
    (run : list (epoch_result loss weights)) : option loss * disk weights :=
  foldl (on_epoch_end path) (None, d0) run.

End ModelSaver.

(** ** Inference cell *)

(** [model_path = os.path.join(save_dir, 'lstm_imdb_best_loss.h5')] *)
Definition model_path (save_dir : string) : string :=
  path_join save_dir "lstm_imdb_best_loss.h5".

(** [tf.keras.models.load_model(model_path, compile=False)]: the stored
    parameters, or a failure when the file is missing. *)
Definition load_model {weights : Type} (d : disk weights) (path : string)
    : option weights :=
  files d !! path.

(** [selected_idx = np.random.randint(10000)]: some integer from 0 up to,
    and not including, this bound. *)
Definition selected_idx_bound : Z := 10000.

(** [padded_seq = np.array([pad(x_eval[selected_idx], MAX_LEN, 0)])] *)
Definition padded_seq (x_eval : list (list Z)) (selected_idx : nat)
    : option ndarray :=
  x_eval !! selected_idx ≫= λ x, Some (np_array [pad x MAX_LEN 0]).

(** ** A sample run

    Used to evaluate the training loop on concrete epochs. *)

(** A run of three epochs with integer losses 5, 7 and 3 in a fresh
    directory. *)
Definition sample_run : list (epoch_result Z string) :=
  [ {| eval_loss := 5; params := "w1" |};
    {| eval_loss := 7; params := "w2" |};
    {| eval_loss := 3; params := "w3" |} ].

Definition fresh_disk : disk string := {| files := ∅; written := [] |}.

(** * Part II: properties *)

(** ** Python list primitives *)

Section Py_facts.
Context {A : Type}.
Implicit Types (l k : list A) (v : A) (n : Z).

Lemma list_mul_singleton v n :
  Py.list_mul [v] n = replicate (Z.to_nat n) v.
Proof.
  unfold Py.list_mul. induction (Z.to_nat n) as [|m IH]; simpl; [done|].
  by rewrite IH.
Qed.

Lemma len_app l k : Py.len (l ++ k) = Py.len l + Py.len k.
Proof. unfold Py.len. rewrite length_app. lia. Qed.

Lemma len_replicate (m : nat) v : Py.len (replicate m v) = Z.of_nat m.
Proof. unfold Py.len. by rewrite length_replicate. Qed.

Lemma len_nonneg l : 0 ≤ Py.len l.
Proof. unfold Py.len. lia. Qed.

End Py_facts.

(** ** Sequence padding *)

Example pad_short : pad [7; 8] 5 0 = [7; 8; 0; 0; 0].
Proof. reflexivity. Qed.

Example pad_exact : pad [7; 8] 2 0 = [7; 8].
Proof. reflexivity. Qed.

Example pad_long : pad [1; 2; 3; 4; 5] 2 0 = [1; 2; 3; 4; 5; 0; 0; 0].
Proof. reflexivity. Qed.

Example pad_negative_size : pad [1] (-2) 9 = [1; 9; 9; 9].
Proof. reflexivity. Qed.

Section pad_facts.
Context {A : Type}.
Implicit Types (xs : list A) (n : Z) (v : A).

(** The appended block, as a [replicate]. *)
Lemma pad_unfold xs n v :
  pad xs n v = xs ++ replicate (Z.to_nat (Z.abs (Py.len xs - n))) v.
Proof. unfold pad. by rewrite list_mul_singleton. Qed.

(** The length law of [pad], for every input. *)
Lemma len_pad xs n v : Py.len (pad xs n v) = Py.len xs + Z.abs (Py.len xs - n).
Proof. rewrite pad_unfold, len_app, len_replicate. lia. Qed.

(** At the target length and above it, nothing is missing; at the target
    length exactly, nothing is appended. *)
Lemma pad_at_target xs v : pad xs (Py.len xs) v = xs.
Proof.
  rewrite pad_unfold. replace (Py.len xs - Py.len xs) with 0 by lia.
  simpl. apply app_nil_r.
Qed.

End pad_facts.

Section pad_claims.
Context {A : Type}.
Implicit Types (input_list : list A) (padding_size : Z) (padding_value : A).

(** C1. An input strictly shorter than the target length is padded to
    exactly the target length. *)
Theorem pad_shorter_has_target_length input_list padding_size padding_value :
  Py.len input_list < padding_size →
  Py.len (pad input_list padding_size padding_value) = padding_size.
Proof. intros Hlt. rewrite len_pad. lia. Qed.

(** C2. An input strictly longer than the target length gets
    [len - padding_size] copies of the fill value appended, so the output has
    length [2 * len - padding_size], strictly more than the input length and
    strictly more than the target length. *)
Theorem pad_longer_overshoots input_list padding_size padding_value :
  padding_size < Py.len input_list →
  pad input_list padding_size padding_value
    = input_list ++ replicate (Z.to_nat (Py.len input_list - padding_size)) padding_value
  ∧ Py.len (pad input_list padding_size padding_value)
    = 2 * Py.len input_list - padding_size
  ∧ Py.len input_list < Py.len (pad input_list padding_size padding_value)
  ∧ padding_size < Py.len (pad input_list padding_size padding_value).
Proof.
  intros Hgt. rewrite len_pad. split; [|lia].
  rewrite pad_unfold. do 3 f_equal. lia.
Qed.

(** C3. Whatever the input, the target length and the fill value, the
    output is the input followed by some number of copies of the fill value,
    and it is at least as long as the target length. *)
Theorem pad_appends_fill input_list padding_size padding_value :
  ∃ k : nat,
    pad input_list padding_size padding_value
      = input_list ++ replicate k padding_value
    ∧ padding_size ≤ Py.len (pad input_list padding_size padding_value).
Proof.
  eexists. split; [apply pad_unfold|]. rewrite len_pad. lia.
Qed.

(** C9. On an input no longer than the target length, padding a second time
    changes nothing. *)
Theorem pad_idempotent input_list padding_size padding_value :
  Py.len input_list ≤ padding_size →
  pad (pad input_list padding_size padding_value) padding_size padding_value
    = pad input_list padding_size padding_value.
Proof.
  intros Hle.
  assert (Py.len (pad input_list padding_size padding_value) = padding_size) as Hlen
    by (rewrite len_pad; lia).
  rewrite <- Hlen at 2. apply pad_at_target.
Qed.

(** C10. The output starts with the input, element for element, whatever
    the target length: nothing is cut off and nothing is changed. *)
Theorem pad_keeps_input input_list padding_size padding_value :
  take (length input_list) (pad input_list padding_size padding_value) = input_list
  ∧ ∀ i : nat, (i < length input_list)%nat →
      pad input_list padding_size padding_value !! i = input_list !! i.
Proof.
  rewrite pad_unfold. split.
  - by rewrite take_app_length.
  - intros i Hi. by apply lookup_app_l.
Qed.

End pad_claims.

Lemma pad_shorter_has_target_length_witness :
  Py.len [3; 1; 4] < 5 ∧ Py.len (pad [3; 1; 4] 5 0) = 5.
Proof.
  split; [reflexivity|].
  apply (pad_shorter_has_target_length [3; 1; 4] 5 0). reflexivity.
Defined.

Lemma pad_longer_overshoots_witness :
  2 < Py.len [3; 1; 4; 1; 5]
  ∧ pad [3; 1; 4; 1; 5] 2 0 = [3; 1; 4; 1; 5] ++ replicate 3 0
  ∧ Py.len (pad [3; 1; 4; 1; 5] 2 0) = 8.
Proof.
  split; [reflexivity|].
  pose proof (pad_longer_overshoots [3; 1; 4; 1; 5] 2 0) as H.
  destruct H as (Happ & Hlen & _); [reflexivity|].
  split; [exact Happ|exact Hlen].
Defined.

Lemma pad_idempotent_witness :
  Py.len [3; 1; 4] ≤ 5 ∧ pad (pad [3; 1; 4] 5 0) 5 0 = pad [3; 1; 4] 5 0.
Proof.
  split; [by vm_compute|].
  apply (pad_idempotent [3; 1; 4] 5 0). by vm_compute.
Defined.

(** ** Data preparation *)

(** What a review no longer than the target length becomes. *)
Lemma pad_within_target (x : list Z) :
  Py.len x ≤ MAX_LEN →
  pad x MAX_LEN 0 = x ++ replicate (Z.to_nat (MAX_LEN - Py.len x)) 0
  ∧ Py.len (pad x MAX_LEN 0) = MAX_LEN.
Proof.
  intros Hle. rewrite len_pad. split; [|lia].
  rewrite pad_unfold. do 3 f_equal. lia.
Qed.

Lemma padded_reviews_within_target (xs : list (list Z)) :
  Forall (λ x, Py.len x ≤ MAX_LEN) xs →
  Forall2 (λ x p, p = x ++ replicate (Z.to_nat (MAX_LEN - Py.len x)) 0
                  ∧ Py.len p = MAX_LEN)
    xs (padded_reviews xs).
Proof.
  unfold padded_reviews. induction 1 as [|x xs Hx _ IH]; simpl.
  - constructor.
  - constructor; [by apply pad_within_target|exact IH].
Qed.

Lemma reviews_of_data_train x_train y_train x_eval y_eval :
  reviews_of (data x_train y_train x_eval y_eval) "train"
    = Some (padded_reviews x_train).
Proof. unfold reviews_of, data. by simplify_map_eq. Qed.

Lemma reviews_of_data_eval x_train y_train x_eval y_eval :
  reviews_of (data x_train y_train x_eval y_eval) "eval"
    = Some (padded_reviews x_eval).
Proof. unfold reviews_of, data. by simplify_map_eq. Qed.

(** C7. When every review the loader returned is at most [MAX_LEN] long,
    every review stored in the train and eval parts of [data] is its loaded
    review followed by zeros, and is exactly [MAX_LEN] long. *)
Theorem data_reviews_have_max_len x_train y_train x_eval y_eval :
  Forall (λ x, Py.len x ≤ MAX_LEN) x_train →
  Forall (λ x, Py.len x ≤ MAX_LEN) x_eval →
  ∀ part loaded, (part, loaded) ∈ [("train", x_train); ("eval", x_eval)] →
    ∃ stored,
      reviews_of (data x_train y_train x_eval y_eval) part = Some stored
      ∧ Forall2 (λ x p, p = x ++ replicate (Z.to_nat (MAX_LEN - Py.len x)) 0
                        ∧ Py.len p = MAX_LEN)
          loaded stored.
Proof.
  intros Htrain Heval part loaded Hin.
  apply elem_of_cons in Hin as [Heq|Hin].
  { injection Heq as -> ->. eexists. split; [apply reviews_of_data_train|].
    by apply padded_reviews_within_target. }
  apply list_elem_of_singleton in Hin. injection Hin as -> ->.
  eexists. split; [apply reviews_of_data_eval|].
  by apply padded_reviews_within_target.
Qed.

Lemma data_reviews_have_max_len_witness :
  ∃ stored,
    reviews_of (data [[5; 6]; []] [1; 0] [[7]] [1]) "train" = Some stored
    ∧ Forall2 (λ x p, p = x ++ replicate (Z.to_nat (MAX_LEN - Py.len x)) 0
                      ∧ Py.len p = MAX_LEN)
        [[5; 6]; []] stored.
Proof.
  apply (data_reviews_have_max_len [[5; 6]; []] [1; 0] [[7]] [1]).
  - repeat constructor; by vm_compute.
  - repeat constructor; by vm_compute.
  - left.
Defined.

(** ** Pipeline: the label reshape *)

Example reshape_three_labels :
  apply_op pipeline_ops {[ "y" := Vec [1; 0; 1] ]}
    = Some {[ "y" := Mat [[1]; [0]; [1]] ]}.
Proof. unfold apply_op. simplify_map_eq. by rewrite insert_singleton_eq. Qed.

Example reshape_shape_mismatch :
  apply_op (Reshape [2] "y" "y") {[ "y" := Vec [1; 0; 1] ]} = None.
Proof. unfold apply_op. by simplify_map_eq. Qed.

Lemma samples_Vec_singletons (labels : list Z) :
  forallb (λ s, Py.len s =? 1) (samples (Vec labels)) = true.
Proof. induction labels as [|l labels IH]; simpl; [done|exact IH]. Qed.

Lemma Reshape_forward_labels (labels : list Z) :
  Reshape_forward [1] (Vec labels) = Some (Mat ((λ v, [v]) <$> labels)).
Proof. unfold Reshape_forward. by rewrite samples_Vec_singletons. Qed.

Lemma singletons_shape (labels : list Z) :
  has_shape (Mat ((λ v, [v]) <$> labels)) [Py.len labels; 1].
Proof.
  simpl. split.
  - unfold Py.len. by rewrite length_fmap.
  - apply Forall_fmap, Forall_true. done.
Qed.

Lemma singletons_join (labels : list Z) :
  mjoin ((λ v, [v]) <$> labels) = labels.
Proof. induction labels as [|l labels IH]; [done|]. simpl. by f_equal. Qed.

(** C5. On a batch whose labels are [N] scalars, that is of shape (N), the
    pipeline's reshape stores under the same key an array of shape (N, 1):
    [N] rows of exactly one column each, holding the labels in order; the
    other keys of the batch are untouched. *)
Theorem label_reshape_shape (batch : gmap string ndarray) (labels : list Z) :
  batch !! "y" = Some (Vec labels) →
  has_shape (Vec labels) [Py.len labels]
  ∧ ∃ rows,
      apply_op pipeline_ops batch = Some (<["y" := Mat rows]> batch)
      ∧ has_shape (Mat rows) [Py.len labels; 1]
      ∧ mjoin rows = labels.
Proof.
  intros Hy. split; [done|].
  exists ((λ v, [v]) <$> labels). split; [|split].
  - unfold apply_op, pipeline_ops, Reshape.
    cbn [op_inputs op_outputs op_forward]. rewrite Hy.
    cbn [mbind option_bind]. by rewrite Reshape_forward_labels.
  - apply singletons_shape.
  - apply singletons_join.
Qed.

Lemma label_reshape_shape_witness :
  ∃ rows,
    apply_op pipeline_ops {[ "x" := Mat [[4; 0]; [5; 6]]; "y" := Vec [1; 0] ]}
      = Some (<["y" := Mat rows]> {[ "x" := Mat [[4; 0]; [5; 6]]; "y" := Vec [1; 0] ]})
    ∧ has_shape (Mat rows) [2; 1]
    ∧ mjoin rows = [1; 0].
Proof.
  apply (label_reshape_shape
           {[ "x" := Mat [[4; 0]; [5; 6]]; "y" := Vec [1; 0] ]} [1; 0]).
  by vm_compute.
Defined.

(** ** Model topology *)

Lemma layers_add model layer : layers (add model layer) = layers model ++ [layer].
Proof. reflexivity. Qed.

(** C8. The model [create_lstm] builds is the fixed stack: an embedding
    lookup, a one-dimensional convolution, a max pooling, a recurrent (LSTM)
    layer and two dense layers, in this order and nothing else; the last
    dense layer has a single unit with a sigmoid activation. *)
Theorem create_lstm_topology :
  layers create_lstm =
    [ Embedding 10000 64 (Some 500);
      Conv1D 32 3 "same" (Some "relu");
      MaxPooling1D 4;
      LSTM 64;
      Dense 250 (Some "relu");
      Dense 1 (Some "sigmoid") ]
  ∧ stage_of <$> layers create_lstm =
      [ embedding_lookup; convolution_1d; max_pooling; recurrent; dense; dense ]
  ∧ last (layers create_lstm) = Some (Dense 1 (Some "sigmoid")).
Proof. unfold create_lstm. rewrite !layers_add. by repeat split. Qed.

(** ** Training loop and checkpoints *)

(** The inference cell reads the file the trace writes. *)
Lemma model_path_is_checkpoint_path (save_dir : string) :
  model_path save_dir = checkpoint_path save_dir "lstm_imdb".
Proof. reflexivity. Qed.

Section ModelSaver_facts.
Context {loss weights : Type}.
Variable less : loss → loss → bool.
Variable path : string.
Variable d0 : disk weights.
Implicit Types (run pre post : list (epoch_result loss weights)).
Implicit Types (e : epoch_result loss weights) (b l : loss).

Lemma fit_snoc run e :
  fit less path d0 (run ++ [e]) = on_epoch_end less path (fit less path d0 run) e.
Proof. unfold fit. apply foldl_snoc. Qed.

Lemma on_epoch_end_improves (st : option loss * disk weights) e :
  improves less st.1 (eval_loss e) = true →
  on_epoch_end less path st e = (Some (eval_loss e), write st.2 path (params e)).
Proof. unfold on_epoch_end. by intros ->. Qed.

Lemma on_epoch_end_keeps (st : option loss * disk weights) e :
  improves less st.1 (eval_loss e) = false →
  on_epoch_end less path st e = st.
Proof. unfold on_epoch_end. by intros ->. Qed.

(** The disk changes only at an epoch that improves, and that epoch writes
    the checkpoint file. *)
Lemma fit_disk_changed run :
  (fit less path d0 run).2 ≠ d0 →
  ∃ pre e post,
    run = pre ++ e :: post
    ∧ improves less (fit less path d0 pre).1 (eval_loss e) = true
    ∧ (fit less path d0 (pre ++ [e])).2
        = write (fit less path d0 pre).2 path (params e).
Proof.
  induction run as [|e run IH] using rev_ind; [done|].
  rewrite fit_snoc. intros Hne.
  destruct (improves less (fit less path d0 run).1 (eval_loss e)) eqn:Himp.
  - exists run, e, []. split; [done|]. split; [done|].
    rewrite fit_snoc. by rewrite on_epoch_end_improves.
  - rewrite on_epoch_end_keeps in Hne by done.
    destruct (IH Hne) as (pre & e' & post & -> & Hi & Hw).
    exists pre, e', (post ++ [e]). by rewrite <- app_assoc.
Qed.

Hypothesis less_irrefl : ∀ l, less l l = false.
Hypothesis less_trans :
  ∀ l1 l2 l3, less l1 l2 = true → less l2 l3 = true → less l1 l3 = true.

(** The loss the trace holds is one of the losses seen, and none of the
    losses seen is better. *)
Lemma fit_best_minimal run :
  match (fit less path d0 run).1 with
  | None => run = []
  | Some b =>
      (∃ e, e ∈ run ∧ eval_loss e = b)
      ∧ ∀ e, e ∈ run → less (eval_loss e) b = false
  end.
Proof.
  induction run as [|e run IH] using rev_ind; [done|].
  rewrite fit_snoc. unfold on_epoch_end.
  destruct (improves less (fit less path d0 run).1 (eval_loss e)) eqn:Himp; simpl.
  - split; [exists e; split; [apply elem_of_app; right; apply list_elem_of_singleton|]; done|].
    intros e' [Hin|Hin]%elem_of_app.
    + destruct (fit less path d0 run).1 as [b|] eqn:Hb.
      * destruct IH as [_ Hmin]. simpl in Himp.
        destruct (less (eval_loss e') (eval_loss e)) eqn:Hless; [|done].
        rewrite <- (Hmin e' Hin). symmetry. by eapply less_trans.
      * subst run. by apply elem_of_nil in Hin.
    + apply list_elem_of_singleton in Hin as ->. apply less_irrefl.
  - destruct (fit less path d0 run).1 as [b|] eqn:Hb; [|done].
    destruct IH as [(e0 & Hin0 & Hb0) Hmin]. split.
    + exists e0. split; [apply elem_of_app; by left|done].
    + intros e' [Hin|Hin]%elem_of_app; [by apply Hmin|].
      apply list_elem_of_singleton in Hin as ->. exact Himp.
Qed.

(** An epoch whose loss is worse than a loss seen before does not improve. *)
Lemma worse_epoch_does_not_improve pre e e' :
  e' ∈ pre → less (eval_loss e') (eval_loss e) = true →
  improves less (fit less path d0 pre).1 (eval_loss e) = false.
Proof.
  intros Hin Hworse. pose proof (fit_best_minimal pre) as Hbest.
  destruct (fit less path d0 pre).1 as [b|].
  - destruct Hbest as [_ Hmin]. simpl.
    destruct (less (eval_loss e) b) eqn:Hless; [|done].
    rewrite <- (Hmin e' Hin). symmetry. by eapply less_trans.
  - subst pre. by apply elem_of_nil in Hin.
Qed.

(** C4. In a run of the training loop that starts with no checkpoint file:
    if the file exists after the run, some epoch of the run improved on the
    best evaluation loss before it and wrote the file then; and an epoch
    whose evaluation loss is worse than the best seen before it, or than
    any loss seen before it, leaves the disk as it was, the stored
    checkpoint included. *)
Theorem checkpoint_written_only_on_improvement run :
  files d0 !! path = None →
  (is_Some (files (fit less path d0 run).2 !! path) →
     ∃ pre e post,
       run = pre ++ e :: post
       ∧ improves less (fit less path d0 pre).1 (eval_loss e) = true
       ∧ (fit less path d0 (pre ++ [e])).2
           = write (fit less path d0 pre).2 path (params e))
  ∧ (∀ pre e post,
       run = pre ++ e :: post →
       ((∃ b, (fit less path d0 pre).1 = Some b ∧ less b (eval_loss e) = true)
        ∨ (∃ e', e' ∈ pre ∧ less (eval_loss e') (eval_loss e) = true)) →
       (fit less path d0 (pre ++ [e])).2 = (fit less path d0 pre).2).
Proof.
  intros Hfresh. split.
  - intros Hfile. apply fit_disk_changed. intros Heq.
    rewrite Heq, Hfresh in Hfile. by destruct Hfile.
  - intros pre e post _ Hworse.
    assert (∃ e', e' ∈ pre ∧ less (eval_loss e') (eval_loss e) = true)
      as (e' & Hin & Hless).
    { destruct Hworse as [(b & Hb & Hless)|?]; [|done].
      pose proof (fit_best_minimal pre) as Hbest. rewrite Hb in Hbest.
      destruct Hbest as [(e' & Hin & <-) _]. by exists e'. }
    rewrite fit_snoc, on_epoch_end_keeps; [done|].
    by eapply worse_epoch_does_not_improve.
Qed.

End ModelSaver_facts.

Example sample_run_worse_epoch_keeps_checkpoint :
  load_model (fit Z.ltb (model_path "/tmp/d") fresh_disk (take 2 sample_run)).2
    (model_path "/tmp/d") = Some "w1".
Proof. by vm_compute. Qed.

Example sample_run_better_epoch_overwrites :
  load_model (fit Z.ltb (model_path "/tmp/d") fresh_disk sample_run).2
    (model_path "/tmp/d") = Some "w3"
  ∧ length (written (fit Z.ltb (model_path "/tmp/d") fresh_disk sample_run).2) = 2%nat.
Proof. by vm_compute. Qed.

Example no_epoch_no_checkpoint :
  load_model (fit Z.ltb (model_path "/tmp/d") fresh_disk []).2
    (model_path "/tmp/d") = None.
Proof. by vm_compute. Qed.

Lemma Zltb_trans (l1 l2 l3 : Z) :
  (l1 <? l2) = true → (l2 <? l3) = true → (l1 <? l3) = true.
Proof. rewrite !Z.ltb_lt. lia. Qed.

Lemma checkpoint_written_only_on_improvement_witness :
  files fresh_disk !! checkpoint_path "/tmp/d" "lstm_imdb" = None
  ∧ (fit Z.ltb (checkpoint_path "/tmp/d" "lstm_imdb") fresh_disk
       (take 1 sample_run ++ [{| eval_loss := 7; params := "w2" |}])).2
    = (fit Z.ltb (checkpoint_path "/tmp/d" "lstm_imdb") fresh_disk
         (take 1 sample_run)).2.
Proof.
  split; [reflexivity|].
  destruct (checkpoint_written_only_on_improvement Z.ltb
              (checkpoint_path "/tmp/d" "lstm_imdb") fresh_disk
              Z.ltb_irrefl Zltb_trans sample_run) as [_ Hkeep]; [reflexivity|].
  apply (Hkeep (take 1 sample_run) {| eval_loss := 7; params := "w2" |}
           (drop 2 sample_run)); [reflexivity|].
  left. exists 5. split; reflexivity.
Defined.

(** * Part III: further properties of the notebook's own code *)

(** ** Sequence padding, all inputs *)

Section pad_more.
Context {A : Type}.
Implicit Types (xs ys : list A) (n : Z) (v : A).

(** X1. The output length for every input and every target, negative ones
    included: the larger of the target and of twice the input length less
    the target. *)
Theorem pad_length_is_max xs n v :
  Py.len (pad xs n v) = Z.max n (2 * Py.len xs - n).
Proof. rewrite len_pad. lia. Qed.

(** X2. The output has the target length exactly when the input is no
    longer than the target. *)
Theorem pad_hits_target_iff xs n v :
  Py.len (pad xs n v) = n ↔ Py.len xs ≤ n.
Proof. rewrite len_pad. lia. Qed.

(** X3. The input comes back unchanged exactly when it already has the
    target length. *)
Theorem pad_unchanged_iff xs n v :
  pad xs n v = xs ↔ Py.len xs = n.
Proof.
  split.
  - intros Heq. apply (f_equal Py.len) in Heq. rewrite len_pad in Heq. lia.
  - intros <-. apply pad_at_target.
Qed.

(** X4. Every position of the output past the input holds the fill value. *)
Theorem pad_tail_is_fill xs n v (i : nat) :
  (length xs ≤ i)%nat → (i < length (pad xs n v))%nat →
  pad xs n v !! i = Some v.
Proof.
  rewrite pad_unfold, length_app, length_replicate. intros Hge Hlt.
  rewrite lookup_app_r by done. apply lookup_replicate_2. lia.
Qed.

(** X5. Padding twice gives the same as padding once exactly when the input
    is no longer than the target: on a longer input the second padding
    appends again. *)
Theorem pad_twice_iff xs n v :
  pad (pad xs n v) n v = pad xs n v ↔ Py.len xs ≤ n.
Proof.
  split.
  - intros Heq. apply (f_equal Py.len) in Heq. rewrite !len_pad in Heq. lia.
  - intros Hle.
    assert (Py.len (pad xs n v) = n) as Hlen by (rewrite len_pad; lia).
    rewrite <- Hlen at 2. apply pad_at_target.
Qed.

End pad_more.

Lemma pad_tail_is_fill_witness :
  pad [7; 8] 5 0 !! 3%nat = Some 0 ∧ pad [7; 8; 9] 1 0 !! 4%nat = Some 0.
Proof.
  split.
  - apply (pad_tail_is_fill [7; 8] 5 0 3); vm_compute; lia.
  - apply (pad_tail_is_fill [7; 8; 9] 1 0 4); vm_compute; lia.
Defined.

Section pad_repeated.
Context {A : Type}.
Implicit Types (xs ys : list A) (n : Z) (v : A).

(** X6. On an input at least as long as the target, each further padding
    doubles the excess over the target: after [k] paddings the length is the
    target plus [2^k] times the first excess. *)
Theorem pad_repeated_doubles_excess xs n v (k : nat) :
  n ≤ Py.len xs →
  Py.len (Nat.iter k (λ l, pad l n v) xs)
    = n + 2 ^ Z.of_nat k * (Py.len xs - n).
Proof.
  intros Hle. induction k as [|k IH].
  - simpl. lia.
  - rewrite Nat2Z.inj_succ, Z.pow_succ_r by lia. simpl.
    rewrite len_pad, IH.
    assert (0 ≤ 2 ^ Z.of_nat k * (Py.len xs - n)) by
      (apply Z.mul_nonneg_nonneg; [apply Z.pow_nonneg|]; lia).
    lia.
Qed.

(** X7. Padding brings in no value but the fill value: an element of the
    output is an element of the input or the fill value, so what holds of
    every input element and of the fill value holds of every output
    element. *)
Theorem pad_elements xs n v (P : A → Prop) :
  (∀ x, x ∈ pad xs n v → x ∈ xs ∨ x = v)
  ∧ (Forall P xs → P v → Forall P (pad xs n v)).
Proof.
  rewrite pad_unfold. split.
  - intros x [Hin|Hin]%elem_of_app; [by left|right].
    by apply elem_of_replicate in Hin as [-> _].
  - intros Hxs Hv. apply Forall_app. split; [done|].
    by apply Forall_replicate.
Qed.

(** X8. Padding loses trailing fill values: an input shorter than the
    target and the same input with one more fill value at its end are padded
    to the same output. *)
Theorem pad_forgets_trailing_fill xs n v :
  Py.len xs < n →
  pad (xs ++ [v]) n v = pad xs n v.
Proof.
  intros Hlt. rewrite !pad_unfold, len_app, <- app_assoc. f_equal.
  change (Py.len [v]) with 1.
  replace (Z.to_nat (Z.abs (Py.len xs - n)))
    with (S (Z.to_nat (Z.abs (Py.len xs + 1 - n)))) by lia.
  reflexivity.
Qed.

(** X9. An empty input gives as many fill values as the absolute value of
    the target: a negative target does not give an empty output. *)
Theorem pad_empty_input n v :
  pad [] n v = replicate (Z.to_nat (Z.abs n)) v.
Proof.
  rewrite pad_unfold. simpl. f_equal.
  change (Py.len (@nil A)) with 0. lia.
Qed.

End pad_repeated.

Lemma pad_repeated_doubles_excess_witness :
  Py.len (Nat.iter 3 (λ l, pad l 2 0) [1; 2; 3]) = 2 + 2 ^ 3 * (3 - 2).
Proof.
  apply (pad_repeated_doubles_excess [1; 2; 3] 2 0 3). vm_compute. discriminate.
Defined.

Lemma pad_forgets_trailing_fill_witness :
  pad ([4; 5] ++ [0]) 6 0 = pad [4; 5] 6 0.
Proof.
  apply (pad_forgets_trailing_fill [4; 5] 6 0). reflexivity.
Defined.

Lemma pad_elements_witness :
  Forall (λ t, 0 ≤ t < 10000) (pad [3; 9999] 4 0).
Proof.
  apply (proj2 (pad_elements [3; 9999] 4 0 (λ t, 0 ≤ t < 10000))).
  - repeat constructor; lia.
  - lia.
Defined.

(** ** Data preparation, without the loader's bound *)





(** ** Padded reviews and the model's first layer *)

(** X13. The padded reviews fit the embedding layer the model starts with:
    when no loaded review is longer than [MAX_LEN] and every loaded word code
    is at least 0 and below [MAX_WORDS], every padded review is as long as the
    layer's input length and every code in it, the fill value included, is
    below the layer's input dimension. *)
Theorem padded_reviews_fit_embedding (xs : list (list Z))
    (input_dim output_dim input_length : Z) :
  head (layers create_lstm)
    = Some (Embedding input_dim output_dim (Some input_length)) →
  Forall (λ x, Py.len x ≤ MAX_LEN) xs →
  Forall (Forall (λ t, 0 ≤ t < MAX_WORDS)) xs →
  Forall (λ p, Py.len p = input_length ∧ Forall (λ t, 0 ≤ t < input_dim) p)
    (padded_reviews xs).
Proof.
  intros Hhead Hlen Hcodes. injection Hhead as <- _ <-.
  unfold padded_reviews. apply Forall_fmap.
  induction Hlen as [|x xs Hx _ IH]; [constructor|].
  apply Forall_cons in Hcodes as [Hc Hcodes].
  constructor; [|by apply IH].
  unfold compose. split; [rewrite len_pad; lia|].
  rewrite pad_unfold. apply Forall_app. split; [done|].
  apply Forall_replicate. by vm_compute.
Qed.

Lemma padded_reviews_fit_embedding_witness :
  Forall (λ p, Py.len p = 500 ∧ Forall (λ t, 0 ≤ t < 10000) p)
    (padded_reviews [[14; 22]; [9999]]).
Proof.
  apply (padded_reviews_fit_embedding [[14; 22]; [9999]] 10000 64 500).
  - reflexivity.
  - repeat constructor; by vm_compute.
  - repeat constructor; by vm_compute.
Defined.

(** ** Inference cell: the selected review *)

(** X14. The batch built for inference is defined exactly when the selected
    index is below the number of eval reviews, and it is then the one-row
    batch holding the row the data dictionary stores at that index of its
    eval part. *)
Theorem padded_seq_is_stored_row x_train y_train x_eval y_eval (selected_idx : nat) :
  padded_seq x_eval selected_idx
    = (reviews_of (data x_train y_train x_eval y_eval) "eval"
         ≫= (.!! selected_idx))
      ≫= (λ row, Some (np_array [row]))
  ∧ (padded_seq x_eval selected_idx = None
     ↔ (length x_eval ≤ selected_idx)%nat).
Proof.
  rewrite reviews_of_data_eval. unfold padded_seq, padded_reviews. simpl.
  rewrite list_lookup_fmap. split.
  - by destruct (x_eval !! selected_idx).
  - rewrite <- lookup_ge_None. by destruct (x_eval !! selected_idx).
Qed.

(** X15. For a selected review of length [len], the inference batch has one
    row of [max MAX_LEN (2 * len - MAX_LEN)] columns: [MAX_LEN] columns
    exactly when the review is no longer than [MAX_LEN]. *)
Theorem padded_seq_shape (x_eval : list (list Z)) (selected_idx : nat)
    (x : list Z) :
  x_eval !! selected_idx = Some x →
  ∃ a,
    padded_seq x_eval selected_idx = Some a
    ∧ has_shape a [1; Z.max MAX_LEN (2 * Py.len x - MAX_LEN)]
    ∧ (has_shape a [1; MAX_LEN] ↔ Py.len x ≤ MAX_LEN).
Proof.
  intros Hx. unfold padded_seq. rewrite Hx. simpl.
  eexists. split; [done|]. unfold np_array. simpl. split.
  - split; [done|]. constructor; [|constructor]. rewrite len_pad. lia.
  - rewrite Forall_singleton, len_pad. split.
    + intros [_ Hlen]. lia.
    + intros Hle. split; [done|lia].
Qed.

Lemma padded_seq_shape_witness :
  ∃ a,
    padded_seq [[3; 4]; [5]] 1 = Some a
    ∧ has_shape a [1; Z.max MAX_LEN (2 * Py.len [5] - MAX_LEN)]
    ∧ (has_shape a [1; MAX_LEN] ↔ Py.len [5] ≤ MAX_LEN).
Proof.
  apply (padded_seq_shape [[3; 4]; [5]] 1 [5]). reflexivity.
Defined.

(** X16. The inference batch is defined for every index the random draw can
    give exactly when there are at least as many eval reviews as the bound
    of the draw; with fewer reviews some draw selects no review. *)
Theorem padded_seq_defined_for_all_draws (x_eval : list (list Z)) :
  (∀ selected_idx : Z, 0 ≤ selected_idx < selected_idx_bound →
     is_Some (padded_seq x_eval (Z.to_nat selected_idx)))
  ↔ selected_idx_bound ≤ Py.len x_eval.
Proof.
  unfold padded_seq, Py.len. split.
  - intros Hall.
    destruct (decide (selected_idx_bound ≤ Z.of_nat (length x_eval))) as [|Hlt];
      [done|].
    destruct (Hall (Z.of_nat (length x_eval))) as [a Ha]; [lia|].
    rewrite Nat2Z.id, (proj2 (lookup_ge_None x_eval (length x_eval))) in Ha by lia.
    discriminate.
  - intros Hle i Hi.
    destruct (lookup_lt_is_Some_2 x_eval (Z.to_nat i)) as [x Hx]; [lia|].
    rewrite Hx. by eexists.
Qed.
